(** * Injector calculator: the row store, the validator and the derived metrics

    A shallow embedding of [App.tsx] (the revision with the
    [includeInRegression] flag and the small pulse correction table).

    JavaScript numbers are IEEE 754 binary64 values; they are modelled by
    Rocq's primitive [float], whose operations are the processor's.  An
    optional field of a row ([injections?: number]) is an [option float],
    [None] standing for [undefined]. *)

From Stdlib Require Import ZArith List Bool String Ascii Lia Floats.
From Stdlib Require Import DecimalString DecimalNat DecimalPos.
Import ListNotations.

Set Warnings "-inexact-float".

Local Open Scope bool_scope.

(** ** JavaScript values and coercions used by the component *)

(** The values an expression of [rowIsValid] can evaluate to. *)
Inductive value : Type :=
| VUndefined
| VNumber (x : float)
| VBoolean (b : bool).

(** Reading an optional numeric property. *)
Definition property (o : option float) : value :=
  match o with
  | None => VUndefined
  | Some x => VNumber x
  end.

(** [ToNumber]: [undefined] becomes [NaN]. *)
Definition toNumber (o : option float) : float :=
  match o with
  | None => nan
  | Some x => x
  end.

(** [ToBoolean]: [undefined], [+0], [-0] and [NaN] are falsy. *)
Definition toBoolean (v : value) : bool :=
  match v with
  | VUndefined => false
  | VNumber x => negb (PrimFloat.is_zero x || PrimFloat.is_nan x)
  | VBoolean b => b
  end.

(** [a && b]: the left operand when it is falsy, the right one otherwise. *)
Definition js_and (a b : value) : value :=
  if toBoolean a then b else a.

Notation "a &&& b" := (js_and a b) (at level 40, left associativity).

(** The global [isNaN], which applies [ToNumber] first. *)
Definition isNaN (o : option float) : bool :=
  PrimFloat.is_nan (toNumber o).

(** ** Rows *)

Record InjectorTestRow : Type := mkRow {
  injections : option float;
  pulseWidth : option float;
  totalMass : option float;
  includeInRegression : bool;
  id : string
}.

Record InjectorTestRowCleaned : Type := mkCleaned {
  c_injections : float;
  c_pulseWidth : float;
  c_totalMass : float;
  c_includeInRegression : bool
}.

(** [makeRow] reads and increments the module-level counter [nextId]. *)
Definition makeRow (nextId : nat) : InjectorTestRow * nat :=
  (mkRow None None None true
         ("rowInput-" ++ NilEmpty.string_of_uint (Nat.to_uint nextId)),
   S nextId).

(** ** The validator *)

Definition rowIsValid (row : InjectorTestRow) : value :=
  property (injections row) &&& property (pulseWidth row)
  &&& property (totalMass row)
  &&& VBoolean (negb (isNaN (injections row)))
  &&& VBoolean (negb (isNaN (pulseWidth row)))
  &&& VBoolean (negb (isNaN (totalMass row))).

(** What [Array.prototype.filter] and [if] make of the validator's result. *)
Definition valid (row : InjectorTestRow) : bool :=
  toBoolean (rowIsValid row).

(** The validator as the specification words it: every field defined,
    non-zero and finite. *)
Definition defined_nonzero_finite (o : option float) : bool :=
  match o with
  | None => false
  | Some x => negb (PrimFloat.is_zero x) && PrimFloat.is_finite x
  end.

Definition isValid_spec (row : InjectorTestRow) : bool :=
  defined_nonzero_finite (injections row)
  && defined_nonzero_finite (pulseWidth row)
  && defined_nonzero_finite (totalMass row).

(** A field the code accepts: a number that is neither a zero nor [NaN]. *)
Definition usable (o : option float) : bool :=
  match o with
  | None => false
  | Some x => negb (PrimFloat.is_zero x) && negb (PrimFloat.is_nan x)
  end.

(** ** The row store

    The component keeps [rows] in React state and the counter [nextId] at
    module level.  Handlers copy the array ([[...rows]]) and then assign to a
    property of the row object at [index]: the row objects themselves are
    shared between the old and the new array, and the old array is dropped by
    [setRows], so a store is the list of the rows' current contents. *)

Record App : Type := mkApp {
  rows : list InjectorTestRow;
  nextId : nat
}.

(** The first render: [useState([makeRow()])]. *)
Definition initial : App :=
  let '(row, next) := makeRow 0 in mkApp [row] next.

(** The three inputs of a table row and the closure each one passes as
    [mutateRow]: [(r, v) => r.injections = v] and its two siblings. *)
Inductive field : Type := Injections | PulseWidth | TotalMass.

Definition setField (f : field) (r : InjectorTestRow) (v : float)
  : InjectorTestRow :=
  match f with
  | Injections =>
      mkRow (Some v) (pulseWidth r) (totalMass r) (includeInRegression r) (id r)
  | PulseWidth =>
      mkRow (injections r) (Some v) (totalMass r) (includeInRegression r) (id r)
  | TotalMass =>
      mkRow (injections r) (pulseWidth r) (Some v) (includeInRegression r) (id r)
  end.

(** Assigning to a property of [newRows[index]].  Out of range the element is
    [undefined] and the assignment throws a [TypeError]: [None]. *)
Fixpoint assign_at {A : Type} (index : nat) (f : A -> A) (l : list A)
  : option (list A) :=
  match l, index with
  | [], _ => None
  | x :: l', O => Some (f x :: l')
  | x :: l', S i =>
      match assign_at i f l' with
      | Some l'' => Some (x :: l'')
      | None => None
      end
  end.

(** [handleInputChange]; [value] is the number [parseFloat] made of the
    input's text ([NaN] when the text is not a number). *)
Definition handleInputChange (rows : list InjectorTestRow) (index : nat)
  (mutateRow : InjectorTestRow -> float -> InjectorTestRow) (value : float)
  : option (list InjectorTestRow) :=
  assign_at index (fun r => mutateRow r value) rows.

Definition handleInclude (rows : list InjectorTestRow) (index : nat)
  (value : bool) : option (list InjectorTestRow) :=
  assign_at index
    (fun r => mkRow (injections r) (pulseWidth r) (totalMass r) value (id r))
    rows.

(** [Array.prototype.filter] with a callback that also receives the index. *)
Fixpoint filter_from {A : Type} (p : A -> nat -> bool) (i : nat) (l : list A)
  : list A :=
  match l with
  | [] => []
  | x :: l' =>
      if p x i then x :: filter_from p (S i) l' else filter_from p (S i) l'
  end.

Definition array_filter {A : Type} (p : A -> nat -> bool) (l : list A)
  : list A :=
  filter_from p 0 l.

(** [removeRow]: [rows.filter((_, i) => i !== index)]. *)
Definition removeRow (rows : list InjectorTestRow) (index : nat)
  : list InjectorTestRow :=
  array_filter (fun _ i => negb (Nat.eqb i index)) rows.

(** [addRow]: [[...rows, makeRow()]]. *)
Definition addRow (st : App) : App :=
  let '(row, next) := makeRow (nextId st) in
  mkApp (rows st ++ [row]) next.

(** [index === rows.length - 1]. *)
Definition isLastRow (index : nat) (rows : list InjectorTestRow) : bool :=
  Nat.eqb (S index) (List.length rows).

(** The [onBlur] handler of the total-mass input of the row at [index]. *)
Definition onBlur (st : App) (index : nat) (row : InjectorTestRow) : App :=
  if isLastRow index (rows st) && toBoolean (rowIsValid row)
  then addRow st
  else st.

(** What the user can do with the rendered table.  Every row has its three
    inputs and its checkbox; the last row carries the [Add Row] button and
    every other row the remove button.  [Render] is one more evaluation of the
    component function, which evaluates [makeRow()] in the argument of
    [useState] again and drops the result. *)
Inductive event : Type :=
| Change (index : nat) (f : field) (value : float)
| Include (index : nat) (checked : bool)
| Remove (index : nat)
| AddRow
| Blur (index : nat)
| Render.

(** One event on the current render; [None] when the table has no such
    control. *)
Definition fire (st : App) (ev : event) : option App :=
  match ev with
  | Change index f value =>
      match handleInputChange (rows st) index (setField f) value with
      | Some newRows => Some (mkApp newRows (nextId st))
      | None => None
      end
  | Include index checked =>
      match handleInclude (rows st) index checked with
      | Some newRows => Some (mkApp newRows (nextId st))
      | None => None
      end
  | Remove index =>
      if Nat.ltb index (List.length (rows st)) && negb (isLastRow index (rows st))
      then Some (mkApp (removeRow (rows st) index) (nextId st))
      else None
  | AddRow =>
      match rows st with
      | [] => None
      | _ :: _ => Some (addRow st)
      end
  | Blur index =>
      match nth_error (rows st) index with
      | Some row => Some (onBlur st index row)
      | None => None
      end
  | Render => Some (mkApp (rows st) (snd (makeRow (nextId st))))
  end.

Fixpoint run (st : App) (evs : list event) : option App :=
  match evs with
  | [] => Some st
  | ev :: evs' =>
      match fire st ev with
      | Some st' => run st' evs'
      | None => None
      end
  end.

(** ** The regression

    [regression.linear] comes from the npm package [regression]; the
    repository only calls it.  A fit carries [equation = [gradient,
    intercept]] and [predict], which returns the pair [[x, y]]. *)

Record FitResult : Type := mkFit {
  equation : float * float;
  predict : float -> float * float
}.

(** The sums over the data points: the count, then the sums of [x], [y],
    [x*x] and [x*y]. *)
Record sums : Type := mkSums {
  s_n : float; s_x : float; s_y : float; s_xx : float; s_xy : float
}.

Definition accumulate (s : sums) (p : float * float) : sums :=
  let '(x, y) := p in
  mkSums (s_n s + 1) (s_x s + x) (s_y s + y)
         (s_xx s + x * x) (s_xy s + x * y).

(** Modelled from the spec: the package's [linear] is not part of the
    repository.  The specification describes it as ordinary least squares in
    closed form (means and cross-products) for [y = slope * x + intercept];
    with fewer than two points, or no variance in [x], the division by zero
    of the normal equations propagates as a NaN-bearing fit, and nothing is
    thrown; [predict] evaluates the fitted line at any [x]. *)
Definition linear (data : list (float * float)) : FitResult :=
  let s := fold_left accumulate data (mkSums 0 0 0 0 0) in
  let gradient :=
    ((s_n s * s_xy s - s_x s * s_y s) / (s_n s * s_xx s - s_x s * s_x s))%float in
  let intercept := (s_y s / s_n s - gradient * (s_x s / s_n s))%float in
  mkFit (gradient, intercept) (fun x => (x, (gradient * x + intercept)%float)).

(** ** Derived values *)

(** [validRows]; the non-null assertions [r.injections!] are erased by the
    compiler, and after the filter the three fields are numbers. *)
Definition clean (r : InjectorTestRow) : InjectorTestRowCleaned :=
  mkCleaned (toNumber (injections r)) (toNumber (pulseWidth r))
            (toNumber (totalMass r)) (includeInRegression r).

Definition validRows (rows : list InjectorTestRow)
  : list InjectorTestRowCleaned :=
  map clean (filter (fun r => toBoolean (rowIsValid r)) rows).

(** The argument of [regression.linear]. *)
Definition regressionData (rows : list InjectorTestRow)
  : list (float * float) :=
  map (fun d => (c_pulseWidth d, (1e3 * c_totalMass d / c_injections d)%float))
      (filter c_includeInRegression (validRows rows)).

Definition regressionResult (rows : list InjectorTestRow) : FitResult :=
  linear (regressionData rows).

Definition flowRate (fit : FitResult) : float := fst (equation fit).

Definition deadtime (fit : FitResult) : float :=
  (- snd (equation fit) / flowRate fit)%float.

(** One element of [dataForPlot]. *)
Record PlotDatum : Type := mkDatum {
  d_pulseWidth : float;
  d_massPerPulse : float;
  d_err : float;
  d_modelMass : float;
  d_modelPulse : float;
  d_smallPulseAdder : float
}.

Definition plotDatum (fit : FitResult) (row : InjectorTestRowCleaned)
  : PlotDatum :=
  let massPerPulse := (c_totalMass row / c_injections row)%float in
  let actualMassMg := (1e3 * c_totalMass row / c_injections row)%float in
  let modelMass := snd (predict fit (c_pulseWidth row)) in
  let pctError := (100 * (modelMass - actualMassMg) / actualMassMg)%float in
  let modelPulse := (1e3 * massPerPulse / flowRate fit)%float in
  let smallPulseAdder :=
    (c_pulseWidth row - deadtime fit - modelPulse)%float in
  mkDatum (c_pulseWidth row) (1e3 * massPerPulse)%float pctError modelMass
          modelPulse smallPulseAdder.

Definition dataForPlot (fit : FitResult) (rows : list InjectorTestRow)
  : list PlotDatum :=
  map (plotDatum fit) (validRows rows).

(** The three numbers a table row shows, computed for every row of the store
    (on a missing field the arithmetic yields NaN). *)
Definition actualMassMg (row : InjectorTestRow) : float :=
  (1e3 * toNumber (totalMass row) / toNumber (injections row))%float.

Definition modelMass (fit : FitResult) (row : InjectorTestRow) : float :=
  snd (predict fit (toNumber (pulseWidth row))).

Definition pctError (fit : FitResult) (row : InjectorTestRow) : float :=
  (100 * (modelMass fit row - actualMassMg row) / actualMassMg row)%float.

(** ** Formatting *)

(** The text a number is shown as.  [Number.prototype.toFixed] hands a finite
    number of magnitude 10^21 or more over to [Number::toString]; that text
    is left uninterpreted. *)
Inductive text : Type :=
| Text (s : string)
| NumberToString (x : float).

(** The integer [n] for which [n - N/D] is as close to zero as possible, the
    larger one when there are two ([0 <= N], [0 < D]). *)
Definition nearest (N D : Z) : Z := ((2 * N + D) / (2 * D))%Z.

Fixpoint zeros (k : nat) : string :=
  match k with
  | O => EmptyString
  | S k' => String "0" (zeros k')
  end.

(** The decimal digits of [n] with the point before the last [f] of them,
    padded with zeros up to [f + 1] digits. *)
Definition fixed_digits (n : Z) (f : nat) : string :=
  let m := NilEmpty.string_of_uint (N.to_uint (Z.to_N n)) in
  if Nat.eqb f 0 then m
  else
    let m := (zeros (S f - String.length m) ++ m)%string in
    let k := String.length m in
    (substring 0 (k - f) m ++ "." ++ substring (k - f) f m)%string.

(** A finite number of mantissa [m] and exponent [e] has the magnitude
    [m * 2^e], the fraction [magnitude_num m e / magnitude_den e]. *)
Definition magnitude_num (m : positive) (e : Z) : Z :=
  (Zpos m * 2 ^ Z.max e 0)%Z.

Definition magnitude_den (e : Z) : Z := (2 ^ Z.max (- e) 0)%Z.

(** [x.toFixed(f)] for [f] up to 100: the sign, then the digits of the
    integer nearest to [|x| * 10^f]. *)
Definition toFixed (x : float) (f : nat) : text :=
  match Prim2SF x with
  | S754_nan => Text "NaN"
  | S754_infinity false => Text "Infinity"
  | S754_infinity true => Text "-Infinity"
  | S754_zero _ => Text (fixed_digits 0 f)
  | S754_finite s m e =>
      let N := magnitude_num m e in
      let D := magnitude_den e in
      if (10 ^ 21 * D <=? N)%Z then NumberToString x
      else
        Text ((if s then "-" else "")
              ++ fixed_digits (nearest (N * 10 ^ Z.of_nat f) D) f)%string
  end.

Definition formatRowValue (val : option float) : text :=
  match val with
  | None => Text ""
  | Some x => if isNaN val then Text "" else toFixed x 1
  end.

(** ** What is rendered *)

Inductive button : Type := AddRowButton | RemoveButton.

(** The computed cells and the button of one table row. *)
Record TableRow : Type := mkTableRow {
  t_actualMass : text;
  t_modelMass : text;
  t_pctError : text;
  t_button : button
}.

Definition tableRow (fit : FitResult) (rows : list InjectorTestRow)
  (row : InjectorTestRow) (index : nat) : TableRow :=
  mkTableRow (formatRowValue (Some (actualMassMg row)))
             (formatRowValue (Some (modelMass fit row)))
             (formatRowValue (Some (pctError fit row)))
             (if isLastRow index rows then AddRowButton else RemoveButton).

(** [Array.prototype.map] with a callback that also receives the index. *)
Fixpoint map_from {A B : Type} (f : A -> nat -> B) (i : nat) (l : list A)
  : list B :=
  match l with
  | [] => []
  | x :: l' => f x i :: map_from f (S i) l'
  end.

Definition tableRows (fit : FitResult) (rows : list InjectorTestRow)
  : list TableRow :=
  map_from (tableRow fit rows) 0 rows.

(** The flow rate and deadtime paragraph. *)
Record Summary : Type := mkSummary {
  flowRateText : text;
  ccPerMinText : text;
  deadtimeText : text
}.

Definition summary (fit : FitResult) : Summary :=
  mkSummary (toFixed (flowRate fit) 2)
            (toFixed (83.333 * flowRate fit) 1)
            (toFixed (deadtime fit) 2).

(** The two lines of the small pulse correction table, before [join(', ')]. *)
Definition smallPulseTable (data : list PlotDatum) : list text * list text :=
  (map (fun c => toFixed (d_smallPulseAdder c) 3) data,
   map (fun c => toFixed (d_modelPulse c) 3) data).

(** ** Vocabulary of the statements *)

(** Agreement "within floating-point tolerance": the difference is at most
    [1e-9], relative to [1 + |b|]. *)
Definition approx (a b : float) : bool :=
  (abs (a - b) <=? 1e-9 * (1 + abs b))%float.

(** A number that is a zero or NaN. *)
Definition zero_or_nan (x : float) : bool :=
  PrimFloat.is_zero x || PrimFloat.is_nan x.

(** A fit whose coefficients and predictions are all NaN. *)
Definition degenerate (fit : FitResult) : Prop :=
  equation fit = (nan, nan) /\ forall x, snd (predict fit x) = nan.

(** The rows that reach the regression. *)
Definition fitted (r : InjectorTestRow) : bool :=
  toBoolean (rowIsValid r) && includeInRegression r.

(** The end-to-end scenario of the specification. *)
Definition scenario : list InjectorTestRow :=
  [mkRow (Some 10%float) (Some 2%float) (Some 0.02%float) true "rowInput-0";
   mkRow (Some 10%float) (Some 4%float) (Some 0.06%float) true "rowInput-4"].

(** The fields and the flag of each row, without the ids. *)
Definition contents (st : App)
  : list (option float * option float * option float * bool) :=
  map (fun r => (injections r, pulseWidth r, totalMass r,
                 includeInRegression r)) (rows st).

(** Typing the three fields of the row at [index], each change followed by
    the render it causes. *)
Definition complete (index : nat) (i p m : float) : list event :=
  [Change index Injections i; Render; Change index PulseWidth p; Render;
   Change index TotalMass m; Render].

(** The line of slope 2 and intercept -2 through the two points (2, 2) and
    (4, 6) of the end-to-end scenario. *)
Definition scenario_fit : FitResult :=
  mkFit (2, -2)%float (fun x => (x, (2 * x + -2)%float)).

(** A horizontal line through 5: what fitting two points of equal
    mass-per-pulse gives. *)
Definition level_fit : FitResult :=
  mkFit (0, 5)%float (fun x => (x, (0 * x + 5)%float)).

(** Two rows of equal mass-per-pulse at different pulse widths. *)
Definition level_rows : list InjectorTestRow :=
  [mkRow (Some 1%float) (Some 1%float) (Some 0.005%float) true "rowInput-0";
   mkRow (Some 1%float) (Some 2%float) (Some 0.005%float) true "rowInput-4"].

(** The digits of [n] as [toFixed] writes them before placing the point. *)
Definition digits (n : Z) : string :=
  NilEmpty.string_of_uint (N.to_uint (Z.to_N n)).

(** ** The focus effect and further vocabulary *)

(** [rows[rows.length - 1].id], the argument of [getElementById] in the
    effect that focuses the last row's input.  On an empty array the element
    is [undefined] and reading its [id] throws: [None]. *)
Definition lastRowId (rows : list InjectorTestRow) : option string :=
  option_map id (nth_error rows (List.length rows - 1)).



(** Whether a text is the literal NaN. *)
Definition shows_NaN (t : text) : bool :=
  match t with
  | Text s => String.eqb s "NaN"
  | NumberToString _ => false
  end.

(** Two handlers in a row, the second on the array the first one set. *)
Definition and_then {A B : Type} (o : option A) (k : A -> option B)
  : option B :=
  match o with
  | Some a => k a
  | None => None
  end.

(** * Properties *)

(** ** The validator *)

Lemma toBoolean_property (o : option float) :
  toBoolean (property o) = usable o.
Proof.
  destruct o as [x|]; simpl; [|reflexivity].
  now rewrite negb_orb.
Qed.

Lemma usable_not_isNaN (o : option float) :
  usable o = true -> isNaN o = false.
Proof.
  destruct o as [x|]; simpl; [|discriminate].
  unfold isNaN; simpl. rewrite andb_true_iff, !negb_true_iff. tauto.
Qed.

Lemma toBoolean_and (a b : value) :
  toBoolean (a &&& b) = toBoolean a && toBoolean b.
Proof.
  unfold js_and. destruct (toBoolean a) eqn:Ha; [reflexivity | exact Ha].
Qed.

Lemma valid_usable (row : InjectorTestRow) :
  valid row =
  usable (injections row) && usable (pulseWidth row) && usable (totalMass row).
Proof.
  unfold valid, rowIsValid.
  rewrite !toBoolean_and, !toBoolean_property. simpl.
  destruct (usable (injections row)) eqn:Hi; [|reflexivity].
  destruct (usable (pulseWidth row)) eqn:Hp; [|reflexivity].
  destruct (usable (totalMass row)) eqn:Hm; [|reflexivity].
  now rewrite (usable_not_isNaN _ Hi), (usable_not_isNaN _ Hp),
    (usable_not_isNaN _ Hm).
Qed.

Lemma usable_iff (o : option float) :
  usable o = true <->
  exists x, o = Some x /\ PrimFloat.is_zero x = false /\
            PrimFloat.is_nan x = false.
Proof.
  destruct o as [x|]; simpl.
  - rewrite andb_true_iff, !negb_true_iff. split.
    + intros [Hz Hn]. now exists x.
    + intros (x' & E & Hz & Hn). injection E as <-. now split.
  - split; [discriminate|]. intros (x & E & _). discriminate.
Qed.

Lemma valid_returns_true (row : InjectorTestRow) :
  toBoolean (rowIsValid row) = true <-> rowIsValid row = VBoolean true.
Proof.
  split; [|now intros ->].
  fold (valid row). rewrite valid_usable, !andb_true_iff.
  intros [[Hi Hp] Hm]. unfold rowIsValid.
  rewrite (usable_not_isNaN _ Hi), (usable_not_isNaN _ Hp),
    (usable_not_isNaN _ Hm).
  rewrite <- toBoolean_property in Hi, Hp, Hm.
  unfold js_and at 5. rewrite Hi.
  unfold js_and at 4. rewrite Hp.
  unfold js_and at 3. rewrite Hm.
  reflexivity.
Qed.

(** C2 (as amended): the validator's result is truthy exactly when the three
    fields are defined, are not a zero and are not NaN, and it is then the
    boolean [true].  Finiteness is not required: an infinite field passes. *)
Theorem rowIsValid_truthy_iff (row : InjectorTestRow) :
  (toBoolean (rowIsValid row) = true <->
   exists i p m,
     injections row = Some i /\ pulseWidth row = Some p /\
     totalMass row = Some m /\
     PrimFloat.is_zero i = false /\ PrimFloat.is_nan i = false /\
     PrimFloat.is_zero p = false /\ PrimFloat.is_nan p = false /\
     PrimFloat.is_zero m = false /\ PrimFloat.is_nan m = false) /\
  (toBoolean (rowIsValid row) = true <-> rowIsValid row = VBoolean true).
Proof.
  split; [|apply valid_returns_true].
  fold (valid row). rewrite valid_usable, !andb_true_iff, !usable_iff.
  split.
  - intros [[(i & Ei & Hi) (p & Ep & Hp)] (m & Em & Hm)].
    exists i, p, m. tauto.
  - intros (i & p & m & Ei & Ep & Em & Hi & Hi' & Hp & Hp' & Hm & Hm').
    repeat split; eauto.
Qed.

(** C2 (counterexample): a row whose injection count is infinite passes the
    validator although one of its fields is not finite; and a blank row makes
    the validator return [undefined], not [false]. *)
Lemma rowIsValid_accepts_infinity :
  let row := mkRow (Some infinity) (Some 1%float) (Some 1%float) true "rowInput-0" in
  toBoolean (rowIsValid row) = true /\ isValid_spec row = false /\
  rowIsValid (mkRow None None None true "rowInput-0") = VUndefined.
Proof. repeat split. Qed.

(** ** The row store *)

Section ArrayFacts.
Context {A : Type}.

Lemma assign_at_length (index : nat) (f : A -> A) (l l' : list A) :
  assign_at index f l = Some l' -> List.length l' = List.length l.
Proof.
  revert index l'. induction l as [|x l IH]; intros [|i] l' H; simpl in H;
    try discriminate.
  - injection H as <-. reflexivity.
  - destruct (assign_at i f l) as [l''|] eqn:E; [|discriminate].
    injection H as <-. simpl. f_equal. eauto.
Qed.

Lemma assign_at_defined (index : nat) (f : A -> A) (l : list A) :
  index < List.length l -> exists l', assign_at index f l = Some l'.
Proof.
  revert index. induction l as [|x l IH]; intros [|i] H; simpl in *;
    try lia.
  - eauto.
  - destruct (IH i) as [l' E]; [lia|]. rewrite E. eauto.
Qed.

(** Once the running index is past [index], the callback of [removeRow]
    keeps everything. *)
Lemma filter_from_past (index i : nat) (l : list A) :
  index < i ->
  filter_from (fun _ j => negb (Nat.eqb j index)) i l = l.
Proof.
  revert i. induction l as [|x l IH]; intros i H; simpl; [reflexivity|].
  destruct (Nat.eqb_spec i index) as [E|_]; [lia|]. simpl.
  f_equal. apply IH. lia.
Qed.

Lemma filter_from_drop (k i : nat) (l : list A) :
  filter_from (fun _ j => negb (Nat.eqb j (i + k))) i l
  = firstn k l ++ skipn (S k) l.
Proof.
  revert k i. induction l as [|x l IH]; intros k i; simpl.
  - now destruct k.
  - destruct k as [|k].
    + rewrite Nat.add_0_r, Nat.eqb_refl. simpl.
      apply filter_from_past. lia.
    + destruct (Nat.eqb_spec i (i + S k)) as [E|_]; [lia|]. simpl.
      f_equal. replace (i + S k) with (S i + k) by lia. apply IH.
Qed.
End ArrayFacts.

Lemma removeRow_firstn_skipn (rows : list InjectorTestRow) (index : nat) :
  removeRow rows index = firstn index rows ++ skipn (S index) rows.
Proof. exact (filter_from_drop index 0 rows). Qed.

Lemma removeRow_length (rows : list InjectorTestRow) (index : nat) :
  index < List.length rows ->
  List.length (removeRow rows index) = List.length rows - 1.
Proof.
  intros H. rewrite removeRow_firstn_skipn, length_app, length_firstn,
    length_skipn. lia.
Qed.

(** C10: with at least two rows, removing the row at an index of the list
    keeps every other row as it is and in its place relative to the others:
    the result is the rows before [index] followed by the rows after it. *)
Theorem removeRow_frame (rows : list InjectorTestRow) (index : nat) :
  2 <= List.length rows -> index < List.length rows ->
  removeRow rows index = firstn index rows ++ skipn (S index) rows /\
  List.length (removeRow rows index) = List.length rows - 1 /\
  (forall j, j < index ->
             nth_error (removeRow rows index) j = nth_error rows j) /\
  (forall j, index <= j ->
             nth_error (removeRow rows index) j = nth_error rows (S j)).
Proof.
  intros _ Hi. split; [apply removeRow_firstn_skipn|].
  split; [now apply removeRow_length|].
  rewrite removeRow_firstn_skipn.
  assert (Hf : List.length (firstn index rows) = index)
    by (rewrite length_firstn; lia).
  split; intros j Hj.
  - rewrite nth_error_app1 by lia. rewrite nth_error_firstn.
    destruct (Nat.ltb_spec j index); [reflexivity | lia].
  - rewrite nth_error_app2 by lia. rewrite Hf, nth_error_skipn.
    f_equal. lia.
Qed.

Lemma removeRow_frame_witness :
  let r0 := mkRow (Some 10%float) (Some 2%float) (Some 0.02%float) true "rowInput-0" in
  let r1 := mkRow None None None false "rowInput-4" in
  let r2 := mkRow None (Some 4%float) None true "rowInput-7" in
  removeRow [r0; r1; r2] 1 = [r0; r2] /\
  List.length (removeRow [r0; r1; r2] 1) = 2.
Proof.
  intros r0 r1 r2.
  destruct (removeRow_frame [r0; r1; r2] 1) as (H1 & H2 & _);
    [simpl; lia | simpl; lia |].
  split; [exact H1 | exact H2].
Defined.

(** Every event the table offers leaves at least one row in the store. *)
Lemma fire_keeps_a_row (st st' : App) (ev : event) :
  rows st <> [] -> fire st ev = Some st' -> rows st' <> [].
Proof.
  intros Hne H.
  assert (Hlen : forall l : list InjectorTestRow,
             List.length l = List.length (rows st) -> l <> []).
  { intros l E ->. destruct (rows st); [now apply Hne | discriminate]. }
  destruct ev as [index f value|index checked|index| |index|]; simpl in H.
  - unfold handleInputChange in H.
    destruct (assign_at _ _ _) as [l|] eqn:E; [|discriminate].
    injection H as <-. simpl. eapply Hlen, assign_at_length, E.
  - unfold handleInclude in H.
    destruct (assign_at _ _ _) as [l|] eqn:E; [|discriminate].
    injection H as <-. simpl. eapply Hlen, assign_at_length, E.
  - destruct (Nat.ltb_spec index (List.length (rows st))) as [Hi|_];
      [|discriminate].
    unfold isLastRow in H.
    destruct (Nat.eqb_spec (S index) (List.length (rows st))) as [_|Hl];
      [discriminate|].
    injection H as <-. simpl. intros E.
    apply (f_equal (@List.length _)) in E.
    rewrite removeRow_length in E by assumption. simpl in E. lia.
  - destruct (rows st) eqn:E; [discriminate|].
    injection H as <-. unfold addRow. simpl. rewrite E. discriminate.
  - destruct (nth_error (rows st) index) as [row|]; [|discriminate].
    injection H as <-. unfold onBlur, addRow.
    destruct (_ && _); [|assumption].
    simpl. intros E. now apply app_eq_nil in E.
  - injection H as <-. assumption.
Qed.

Lemma fire_Remove (st : App) (index : nat) :
  fire st (Remove index) =
  if Nat.ltb (S index) (List.length (rows st))
  then Some (mkApp (firstn index (rows st) ++ skipn (S index) (rows st))
                   (nextId st))
  else None.
Proof.
  simpl. unfold isLastRow. rewrite removeRow_firstn_skipn.
  destruct (Nat.ltb_spec index (List.length (rows st)));
    destruct (Nat.eqb_spec (S index) (List.length (rows st)));
    destruct (Nat.ltb_spec (S index) (List.length (rows st)));
    simpl; try reflexivity; lia.
Qed.

(** C3 (as amended): [removeRow] has no guard of its own; the table shows the
    remove button on every row but the last, and there it deletes the row.
    So from a store with at least one row, every sequence of events the table
    offers leaves at least one row. *)
Theorem remove_keeps_a_row (st st' : App) (evs : list event) :
  rows st <> [] -> run st evs = Some st' ->
  rows st' <> [] /\
  forall index,
    fire st' (Remove index) =
    if Nat.ltb (S index) (List.length (rows st'))
    then Some (mkApp (firstn index (rows st') ++ skipn (S index) (rows st'))
                     (nextId st'))
    else None.
Proof.
  intros Hne Hrun. split; [|apply fire_Remove].
  revert st Hne Hrun. induction evs as [|ev evs IH]; intros st Hne Hrun;
    simpl in Hrun.
  - now injection Hrun as <-.
  - destruct (fire st ev) as [st1|] eqn:E; [|discriminate].
    eapply IH; [|eassumption]. eapply fire_keeps_a_row; eassumption.
Qed.

Lemma remove_keeps_a_row_witness :
  let evs := [AddRow; Render; AddRow; Render; Remove 1; Render; Remove 0] in
  exists st',
    run initial evs = Some st' /\ List.length (rows st') = 1 /\
    rows st' <> [] /\ fire st' (Remove 0) = None.
Proof.
  intros evs.
  destruct (run initial evs) as [st'|] eqn:E; [|discriminate].
  exists st'. split; [reflexivity|].
  destruct (remove_keeps_a_row initial st' evs) as [Hne Hrm];
    [discriminate | exact E |].
  injection E as <-.
  split; [reflexivity|]. split; [exact Hne | exact (Hrm 0)].
Defined.

(** C3 (counterexample): called on the sole row, [removeRow] empties the
    store; it is not a no-op. *)
Lemma removeRow_sole_row :
  removeRow (rows initial) 0 = [] /\ removeRow (rows initial) 0 <> rows initial.
Proof. split; [reflexivity | discriminate]. Qed.

Lemma fire_Blur (st : App) (index : nat) (row : InjectorTestRow) :
  nth_error (rows st) index = Some row ->
  fire st (Blur index) =
    Some (if isLastRow index (rows st) && toBoolean (rowIsValid row)
          then mkApp (rows st ++ [fst (makeRow (nextId st))]) (S (nextId st))
          else st).
Proof.
  intros Hrow. unfold fire. rewrite Hrow. unfold onBlur, addRow.
  now destruct (_ && _).
Qed.

(** C4 (as amended): an update never appends.  A blank row is appended when
    the total-mass input of a row loses focus while that row is the last one
    and passes the validator, and only then; the row is no longer the last
    one afterwards, so a second blur appends nothing.  From one blank row,
    three updates completing row 0 leave one row; the blur then leaves two,
    row 1 blank; completing row 1 and leaving its total-mass input leaves
    three. *)
Theorem append_on_blur :
  (forall (st : App) (index : nat) (row : InjectorTestRow),
     nth_error (rows st) index = Some row ->
     (forall f value, exists newRows,
         fire st (Change index f value) = Some (mkApp newRows (nextId st)) /\
         List.length newRows = List.length (rows st)) /\
     fire st (Blur index) =
       Some (if isLastRow index (rows st) && toBoolean (rowIsValid row)
             then mkApp (rows st ++ [fst (makeRow (nextId st))])
                        (S (nextId st))
             else st) /\
     (forall st', fire st (Blur index) = Some st' ->
                  fire st' (Blur index) = Some st')) /\
  let first := complete 0 10 2 0.02 in
  let second := complete 1 10 4 0.06 in
  option_map contents (run initial first)
    = Some [(Some 10, Some 2, Some 0.02, true)]%float /\
  option_map contents (run initial (first ++ [Blur 0; Render]))
    = Some [(Some 10, Some 2, Some 0.02, true); (None, None, None, true)]%float /\
  option_map contents (run initial (first ++ [Blur 0; Render; Blur 0]))
    = Some [(Some 10, Some 2, Some 0.02, true); (None, None, None, true)]%float /\
  option_map contents
    (run initial (first ++ [Blur 0; Render] ++ second ++ [Blur 1; Render]))
    = Some [(Some 10, Some 2, Some 0.02, true);
            (Some 10, Some 4, Some 0.06, true); (None, None, None, true)]%float.
Proof.
  split; [|repeat split].
  intros st index row Hrow.
  assert (Hi : index < List.length (rows st))
    by (apply nth_error_Some; rewrite Hrow; discriminate).
  split; [|split; [now apply fire_Blur|]].
  - intros f value. unfold fire, handleInputChange.
    destruct (assign_at_defined index (fun r => setField f r value) (rows st) Hi)
      as [l E].
    rewrite E. exists l. split; [reflexivity|].
    eapply assign_at_length, E.
  - intros st' H. rewrite (fire_Blur _ _ _ Hrow) in H. injection H as <-.
    destruct (isLastRow index (rows st)) eqn:El;
      [destruct (toBoolean (rowIsValid row)) eqn:Ev|]; cbn [andb].
    + set (new := fst (makeRow (nextId st))).
      rewrite (fire_Blur _ index row); cbn [rows nextId].
      * unfold isLastRow in *. rewrite length_app. cbn [List.length].
        apply Nat.eqb_eq in El.
        destruct (Nat.eqb_spec (S index) (List.length (rows st) + 1)) as [E|_];
          [lia | reflexivity].
      * rewrite nth_error_app1 by assumption. exact Hrow.
    + rewrite (fire_Blur _ _ _ Hrow). now rewrite El, Ev.
    + rewrite (fire_Blur _ _ _ Hrow). now rewrite El.
Qed.

Lemma append_on_blur_witness :
  let row0 := mkRow (Some 10%float) (Some 2%float) (Some 0.02%float) true "rowInput-0" in
  let st1 := mkApp [row0] 4 in
  nth_error (rows st1) 0 = Some row0 /\
  fire st1 (Blur 0) =
    Some (mkApp [row0; mkRow None None None true "rowInput-4"] 5).
Proof.
  intros row0 st1. split; [reflexivity|].
  exact (proj1 (proj2 (proj1 append_on_blur st1 0 row0 eq_refl))).
Defined.

(** C4 (counterexample): after the three updates that complete row 0 of the
    initial store, the store still has one row, not two. *)
Lemma updates_do_not_append :
  option_map (fun st => List.length (rows st))
    (run initial [Change 0 Injections 10; Change 0 PulseWidth 2;
                  Change 0 TotalMass 0.02])
  = Some 1 /\
  option_map (fun st => List.length (rows st))
    (run initial (complete 0 10 2 0.02)) = Some 1.
Proof. split; reflexivity. Qed.

(** ** Binary64 arithmetic *)

Lemma SFeqb_refl (X : spec_float) :
  SFeqb X X = match X with S754_nan => false | _ => true end.
Proof.
  destruct X as [s|s| |s m e]; try reflexivity.
  - now destruct s.
  - unfold SFeqb, SFcompare.
    rewrite Z.compare_refl, Pos.compare_cont_refl. now destruct s.
Qed.

Lemma is_nan_SF (x : float) :
  PrimFloat.is_nan x =
  match Prim2SF x with S754_nan => true | _ => false end.
Proof.
  unfold PrimFloat.is_nan. rewrite eqb_spec, SFeqb_refl.
  now destruct (Prim2SF x).
Qed.

Lemma is_zero_SF (x : float) :
  PrimFloat.is_zero x =
  match Prim2SF x with S754_zero _ => true | _ => false end.
Proof.
  unfold PrimFloat.is_zero. rewrite eqb_spec.
  change (Prim2SF zero) with (S754_zero false).
  now destruct (Prim2SF x) as [[|]|[|]| |[|] m e].
Qed.

Lemma is_infinity_SF (x : float) :
  PrimFloat.is_infinity x =
  match Prim2SF x with S754_infinity _ => true | _ => false end.
Proof.
  unfold PrimFloat.is_infinity. rewrite eqb_spec, abs_spec.
  change (Prim2SF infinity) with (S754_infinity false).
  now destruct (Prim2SF x) as [[|]|[|]| |[|] m e].
Qed.

Lemma zero_or_nan_SF (x : float) :
  zero_or_nan x =
  match Prim2SF x with S754_zero _ | S754_nan => true | _ => false end.
Proof.
  unfold zero_or_nan. rewrite is_zero_SF, is_nan_SF.
  now destruct (Prim2SF x).
Qed.

Lemma SF_nan_eq (x : float) : Prim2SF x = S754_nan -> x = nan.
Proof. intros H. apply Prim2SF_inj. now rewrite H. Qed.

(** NaN is absorbing. *)
Lemma add_nan_l (x : float) : (nan + x)%float = nan.
Proof. apply SF_nan_eq. now rewrite add_spec. Qed.

Lemma add_nan_r (x : float) : (x + nan)%float = nan.
Proof. apply SF_nan_eq. rewrite add_spec. now destruct (Prim2SF x). Qed.

Lemma sub_nan_l (x : float) : (nan - x)%float = nan.
Proof. apply SF_nan_eq. now rewrite sub_spec. Qed.

Lemma sub_nan_r (x : float) : (x - nan)%float = nan.
Proof. apply SF_nan_eq. rewrite sub_spec. now destruct (Prim2SF x). Qed.

Lemma mul_nan_l (x : float) : (nan * x)%float = nan.
Proof. apply SF_nan_eq. now rewrite mul_spec. Qed.

Lemma mul_nan_r (x : float) : (x * nan)%float = nan.
Proof. apply SF_nan_eq. rewrite mul_spec. now destruct (Prim2SF x). Qed.

Lemma div_nan_l (x : float) : (nan / x)%float = nan.
Proof. apply SF_nan_eq. now rewrite div_spec. Qed.

Lemma div_nan_r (x : float) : (x / nan)%float = nan.
Proof. apply SF_nan_eq. rewrite div_spec. now destruct (Prim2SF x). Qed.

(** Multiplying by one is exact: the product of the mantissas is the
    mantissa shifted by the 52 bits the rounding shifts back. *)
Lemma SFmul_one (s : bool) (m : positive) (e : Z) :
  valid_binary (S754_finite s m e) = true ->
  SF64mul (Prim2SF 1) (S754_finite s m e) = S754_finite s m e.
Proof.
  unfold valid_binary, bounded, canonical_mantissa.
  rewrite andb_true_iff, Z.eqb_eq. intros [Hc Hb].
  change (Prim2SF 1) with (S754_finite false 4503599627370496 (-52)).
  unfold SF64mul, SFmul. cbn [xorb Pos.mul].
  unfold binary_round_aux. unfold shr_fexp at 1.
  cbn [Zdigits2 digits2_pos].
  match goal with |- context [fexp prec emax ?a] =>
    replace a with (Z.pos (digits2_pos m) + e)%Z by lia end.
  rewrite Hc.
  replace (e - (-52 + e))%Z with 52%Z by lia.
  cbv [shr shr_record_of_loc iter_pos shr_1 orb].
  cbn [loc_of_shr_record round_nearest_even shr_m].
  replace (-52 + e + 52)%Z with e by lia.
  unfold shr_fexp. cbn [Zdigits2]. rewrite Hc, Z.sub_diag.
  cbn [shr shr_record_of_loc shr_m]. now rewrite Hb.
Qed.

Lemma mul_one_l (x : float) : (1 * x)%float = x.
Proof.
  apply Prim2SF_inj. rewrite mul_spec.
  pose proof (Prim2SF_valid x) as Hv.
  destruct (Prim2SF x) as [[|]|[|]| |s m e]; try reflexivity.
  now apply SFmul_one.
Qed.

Lemma add_zero_l (x : float) : zero_or_nan x = false -> (0 + x)%float = x.
Proof.
  rewrite zero_or_nan_SF. intros H.
  apply Prim2SF_inj. rewrite add_spec.
  change (Prim2SF 0) with (S754_zero false).
  now destruct (Prim2SF x).
Qed.

Lemma add_zero_zn (x : float) :
  zero_or_nan x = true -> zero_or_nan (0 + x) = true.
Proof.
  rewrite !zero_or_nan_SF, add_spec.
  change (Prim2SF 0) with (S754_zero false).
  now destruct (Prim2SF x) as [[|]|[|]| |[|] m e].
Qed.

Lemma SFsub_diag (s : bool) (m : positive) (e : Z) :
  SF64sub (S754_finite s m e) (S754_finite s m e) = S754_zero false.
Proof. unfold SF64sub, SFsub. now rewrite Z.sub_diag. Qed.

Lemma sub_diag_zn (x : float) : zero_or_nan (x - x) = true.
Proof.
  rewrite zero_or_nan_SF, sub_spec.
  destruct (Prim2SF x) as [[|]|[|]| |s m e]; try reflexivity.
  now rewrite SFsub_diag.
Qed.

Lemma sub_zn (x y : float) :
  zero_or_nan x = true -> zero_or_nan y = true ->
  zero_or_nan (x - y) = true.
Proof.
  rewrite !zero_or_nan_SF, sub_spec.
  now destruct (Prim2SF x) as [[|]|[|]| |[|] m e];
    destruct (Prim2SF y) as [[|]|[|]| |[|] m' e'].
Qed.

Lemma mul_zn_l (x y : float) :
  zero_or_nan x = true -> zero_or_nan (x * y) = true.
Proof.
  rewrite !zero_or_nan_SF, mul_spec.
  now destruct (Prim2SF x) as [[|]|[|]| |[|] m e];
    destruct (Prim2SF y) as [[|]|[|]| |[|] m' e'].
Qed.

Lemma mul_zn_r (x y : float) :
  zero_or_nan y = true -> zero_or_nan (x * y) = true.
Proof.
  rewrite !zero_or_nan_SF, mul_spec.
  now destruct (Prim2SF x) as [[|]|[|]| |[|] m e];
    destruct (Prim2SF y) as [[|]|[|]| |[|] m' e'].
Qed.

Lemma div_zn (x y : float) :
  zero_or_nan x = true -> zero_or_nan y = true -> (x / y)%float = nan.
Proof.
  rewrite !zero_or_nan_SF. intros Hx Hy.
  apply SF_nan_eq. rewrite div_spec.
  now destruct (Prim2SF x) as [[|]|[|]| |[|] m e];
    destruct (Prim2SF y) as [[|]|[|]| |[|] m' e'].
Qed.

(** A quotient by a zero: NaN for a zero or NaN numerator, infinite for
    any other. *)
Lemma div_by_zero (x y : float) :
  PrimFloat.is_zero y = true ->
  PrimFloat.is_nan (x / y) = zero_or_nan x /\
  PrimFloat.is_infinity (x / y) = negb (zero_or_nan x).
Proof.
  rewrite zero_or_nan_SF, is_zero_SF, is_nan_SF, is_infinity_SF, div_spec.
  now destruct (Prim2SF x) as [[|]|[|]| |[|] m e];
    destruct (Prim2SF y) as [[|]|[|]| |[|] m' e'].
Qed.

Lemma opp_zn (x : float) : zero_or_nan (- x) = zero_or_nan x.
Proof.
  rewrite !zero_or_nan_SF, opp_spec. now destruct (Prim2SF x).
Qed.

(** The percentage of a zero difference over a finite non-zero number. *)
Lemma pct_of_zero_difference (a : float) :
  PrimFloat.is_finite a = true -> PrimFloat.is_zero a = false ->
  PrimFloat.is_zero (100 * (a - a) / a) = true.
Proof.
  unfold PrimFloat.is_finite.
  rewrite !is_zero_SF, is_nan_SF, is_infinity_SF, div_spec, mul_spec,
    sub_spec.
  change (Prim2SF 100) with (S754_finite false 7036874417766400 (-46)).
  destruct (Prim2SF a) as [[|]|[|]| |s m e]; try discriminate.
  intros _ _. rewrite SFsub_diag. now destruct s.
Qed.

(** ** The regression and the derived values *)

(** The data handed to [regression.linear], read off the store directly. *)
Lemma regressionData_fitted (rows : list InjectorTestRow) :
  regressionData rows =
  map (fun r => (toNumber (pulseWidth r),
                 (1e3 * toNumber (totalMass r) / toNumber (injections r))%float))
      (filter fitted rows).
Proof.
  unfold regressionData, validRows, fitted.
  induction rows as [|r rows IH]; [reflexivity|]. simpl.
  destruct (toBoolean (rowIsValid r)); simpl; [|exact IH].
  destruct (includeInRegression r); simpl; [|exact IH].
  now rewrite IH.
Qed.

Lemma validRows_In (rows : list InjectorTestRow) (d : InjectorTestRowCleaned) :
  In d (validRows rows) <->
  exists r, In r rows /\ toBoolean (rowIsValid r) = true /\ d = clean r.
Proof.
  unfold validRows. rewrite in_map_iff. split.
  - intros (r & <- & Hr). apply filter_In in Hr. exists r. tauto.
  - intros (r & Hin & Hv & ->). exists r. split; [reflexivity|].
    apply filter_In. tauto.
Qed.

(** The numbers of the plot and those of the table are the same numbers. *)
Lemma plotDatum_clean (fit : FitResult) (r : InjectorTestRow) :
  d_err (plotDatum fit (clean r)) = pctError fit r /\
  d_modelMass (plotDatum fit (clean r)) = modelMass fit r /\
  d_modelPulse (plotDatum fit (clean r)) =
    (1e3 * (toNumber (totalMass r) / toNumber (injections r))
     / flowRate fit)%float.
Proof. repeat split. Qed.

(** With two terms that are both zeros or NaN after cancellation, the
    cross-products of a single point cancel. *)
Lemma single_point_cross (x y : float) :
  zero_or_nan ((0 + x * y) - (0 + x) * (0 + y)) = true.
Proof.
  destruct (zero_or_nan x) eqn:Hx.
  { apply sub_zn; [apply add_zero_zn, mul_zn_l, Hx
                  | apply mul_zn_l, add_zero_zn, Hx]. }
  rewrite (add_zero_l x Hx).
  destruct (zero_or_nan y) eqn:Hy.
  { apply sub_zn; [apply add_zero_zn, mul_zn_r, Hy
                  | apply mul_zn_r, add_zero_zn, Hy]. }
  rewrite (add_zero_l y Hy).
  destruct (zero_or_nan (x * y)) eqn:Hp.
  { apply sub_zn; [apply add_zero_zn, Hp | exact Hp]. }
  rewrite (add_zero_l _ Hp). apply sub_diag_zn.
Qed.

Lemma linear_degenerate (data : list (float * float)) :
  List.length data <= 1 -> degenerate (linear data).
Proof.
  destruct data as [|[x y] [|q data]]; simpl; intros H; try lia.
  - split; [reflexivity|]. intros x. cbn. apply add_nan_r.
  - assert (G : (((0 + 1) * (0 + x * y) - (0 + x) * (0 + y))
                 / ((0 + 1) * (0 + x * x) - (0 + x) * (0 + x)))%float = nan).
    { change (0 + 1)%float with 1%float. rewrite !mul_one_l.
      apply div_zn; apply single_point_cross. }
    unfold linear, degenerate. cbn [fold_left accumulate s_n s_x s_y s_xx s_xy
      equation predict snd].
    rewrite G. split.
    + now rewrite mul_nan_l, sub_nan_r.
    + intros x'. now rewrite !mul_nan_l, sub_nan_r, add_nan_r.
Qed.

Lemma degenerate_pctError (fit : FitResult) (row : InjectorTestRow) :
  degenerate fit -> pctError fit row = nan.
Proof.
  intros [_ Hp]. unfold pctError, modelMass.
  now rewrite Hp, sub_nan_l, mul_nan_r, div_nan_l.
Qed.

(** C1: for the two rows of the end-to-end scenario the mass per pulse is 2
    and 6 mg, the fit has slope 2 and intercept -2, the deadtime is 1 ms and
    the flow rate is 83.333 * 2 cc/min, shown as 166.7. *)
Theorem end_to_end_scenario :
  let fit := regressionResult scenario in
  map toBoolean (map rowIsValid scenario) = [true; true] /\
  regressionData scenario = [(2, 2); (4, 6)]%float /\
  map d_massPerPulse (dataForPlot fit scenario) = [2; 6]%float /\
  map actualMassMg scenario = [2; 6]%float /\
  equation fit = (2, -2)%float /\
  flowRate fit = 2%float /\
  deadtime fit = 1%float /\
  (83.333 * flowRate fit)%float = 166.666%float /\
  ccPerMinText (summary fit) = Text "166.7".
Proof. vm_compute. repeat split. Qed.

Lemma degenerate_deadtime (fit : FitResult) :
  degenerate fit -> deadtime fit = nan.
Proof. intros [He _]. unfold deadtime, flowRate. now rewrite He. Qed.

(** C5: with no fitted row or a single one, the fit is NaN-bearing (both
    coefficients and every prediction), the deadtime is NaN, and the percent
    error of every row, in the plot data and in the table, is NaN, which the
    table shows as an empty cell.  The deadtime and the percent errors are
    NaN for every NaN-bearing fit. *)
Theorem degenerate_fit (rows : list InjectorTestRow) :
  List.length (filter fitted rows) <= 1 ->
  let fit := regressionResult rows in
  equation fit = (nan, nan) /\
  (forall x, snd (predict fit x) = nan) /\
  PrimFloat.is_nan (deadtime fit) = true /\
  (forall d, In d (dataForPlot fit rows) -> PrimFloat.is_nan (d_err d) = true) /\
  (forall row, In row rows ->
     PrimFloat.is_nan (pctError fit row) = true /\
     formatRowValue (Some (pctError fit row)) = Text "") /\
  (forall fit' row,
     equation fit' = (nan, nan) -> (forall x, snd (predict fit' x) = nan) ->
     PrimFloat.is_nan (deadtime fit') = true /\
     PrimFloat.is_nan (pctError fit' row) = true).
Proof.
  intros H fit.
  assert (Hd : degenerate fit).
  { apply linear_degenerate. rewrite regressionData_fitted, length_map.
    exact H. }
  split; [exact (proj1 Hd)|]. split; [exact (proj2 Hd)|].
  split; [|split; [|split]].
  - now rewrite (degenerate_deadtime fit Hd).
  - intros d Hin. unfold dataForPlot in Hin. apply in_map_iff in Hin.
    destruct Hin as (c & <- & Hc). apply validRows_In in Hc.
    destruct Hc as (r & _ & _ & ->).
    rewrite (proj1 (plotDatum_clean fit r)).
    now rewrite (degenerate_pctError fit r Hd).
  - intros row _. now rewrite (degenerate_pctError fit row Hd).
  - intros fit' row He Hp.
    now rewrite (degenerate_deadtime fit' (conj He Hp)),
      (degenerate_pctError fit' row (conj He Hp)).
Qed.

Lemma degenerate_fit_witness :
  let rows :=
    [mkRow (Some 10%float) (Some 2%float) (Some 0.02%float) true "rowInput-0";
     mkRow (Some 10%float) (Some 4%float) (Some 0.06%float) false "rowInput-4";
     mkRow None None None true "rowInput-9"] in
  List.length (filter fitted rows) = 1 /\
  equation (regressionResult rows) = (nan, nan) /\
  PrimFloat.is_nan (deadtime (regressionResult rows)) = true.
Proof.
  intros rows. split; [reflexivity|].
  destruct (degenerate_fit rows) as (He & _ & Hd & _);
    [apply Nat.le_refl | split; [exact He | exact Hd]].
Defined.

(** C6 (as amended): the deadtime is [-intercept / slope] for every fit; when
    the slope is a zero it is NaN only if the intercept is a zero or NaN, and
    infinite for every other intercept.  Nothing is thrown. *)
Theorem deadtime_zero_slope (fit : FitResult) :
  PrimFloat.is_zero (fst (equation fit)) = true ->
  deadtime fit = (- snd (equation fit) / fst (equation fit))%float /\
  PrimFloat.is_nan (deadtime fit) = zero_or_nan (snd (equation fit)) /\
  PrimFloat.is_infinity (deadtime fit) = negb (zero_or_nan (snd (equation fit))).
Proof.
  intros Hz. split; [reflexivity|]. unfold deadtime, flowRate.
  rewrite <- (opp_zn (snd (equation fit))).
  now apply div_by_zero.
Qed.

Lemma deadtime_zero_slope_witness :
  PrimFloat.is_zero (fst (equation level_fit)) = true /\
  PrimFloat.is_nan (deadtime level_fit) = false /\
  PrimFloat.is_infinity (deadtime level_fit) = true.
Proof.
  split; [reflexivity|].
  destruct (deadtime_zero_slope level_fit eq_refl) as (_ & Hn & Hi).
  split; [exact Hn | exact Hi].
Defined.

(** C6 (counterexample): a fit of slope zero and intercept 5 has the deadtime
    minus infinity, not NaN. *)
Lemma deadtime_infinite :
  PrimFloat.is_zero (flowRate level_fit) = true /\
  deadtime level_fit = neg_infinity /\
  PrimFloat.is_nan (deadtime level_fit) = false.
Proof. vm_compute. repeat split. Qed.

(** C7 (as amended): for a valid row whose measured mass per pulse equals the
    prediction of the fit and is finite and not zero, the percent error is
    zero.  The modelled pulse width is [1e3 * (totalMass / injections) /
    flowRate]; it is not the row's pulse width but, for the two rows of the
    end-to-end scenario and the line through them, the pulse width less the
    deadtime (1 and 3 for the pulse widths 2 and 4, deadtime 1), which makes
    the small pulse adder zero. *)
Theorem on_line_metrics :
  (forall (fit : FitResult) (row : InjectorTestRow),
     toBoolean (rowIsValid row) = true ->
     modelMass fit row = actualMassMg row ->
     PrimFloat.is_finite (actualMassMg row) = true ->
     PrimFloat.is_zero (actualMassMg row) = false ->
     PrimFloat.is_zero (pctError fit row) = true /\
     d_err (plotDatum fit (clean row)) = pctError fit row /\
     d_modelPulse (plotDatum fit (clean row)) =
       (1e3 * (toNumber (totalMass row) / toNumber (injections row))
        / flowRate fit)%float) /\
  deadtime scenario_fit = 1%float /\
  map (fun d => (d_pulseWidth d, d_err d, d_modelPulse d, d_smallPulseAdder d))
      (dataForPlot scenario_fit scenario)
  = [(2, 0, 1, 0); (4, 0, 3, 0)]%float.
Proof.
  split; [|split; reflexivity].
  intros fit row _ Hline Hfin Hnz. split; [|split; reflexivity].
  unfold pctError. rewrite Hline.
  now apply pct_of_zero_difference.
Qed.

Lemma on_line_metrics_witness :
  let fit := scenario_fit in
  let row := mkRow (Some 10%float) (Some 4%float) (Some 0.06%float) true "rowInput-4" in
  modelMass fit row = actualMassMg row /\
  PrimFloat.is_zero (pctError fit row) = true.
Proof.
  intros fit row.
  assert (Hline : modelMass fit row = actualMassMg row) by reflexivity.
  split; [exact Hline|].
  exact (proj1 (proj1 on_line_metrics fit row eq_refl Hline eq_refl eq_refl)).
Defined.

(** C7 (counterexample): the first row of the end-to-end scenario lies on the
    fitted line and its percent error is zero, but its modelled pulse width
    is 1 while its pulse width is 2. *)
Lemma modelPulse_is_not_pulseWidth :
  let fit := scenario_fit in
  let row := mkRow (Some 10%float) (Some 2%float) (Some 0.02%float) true "rowInput-0" in
  In row scenario /\
  toBoolean (rowIsValid row) = true /\
  actualMassMg row = (fst (equation fit) * toNumber (pulseWidth row)
                      + snd (equation fit))%float /\
  modelMass fit row = actualMassMg row /\
  approx (pctError fit row) 0 = true /\
  d_modelPulse (plotDatum fit (clean row)) = 1%float /\
  toNumber (pulseWidth row) = 2%float /\
  approx (d_modelPulse (plotDatum fit (clean row))) (toNumber (pulseWidth row))
  = false.
Proof. vm_compute. repeat split. now left. Qed.

Lemma map_from_nth_error {A B : Type} (f : A -> nat -> B) (l : list A)
  (i k : nat) :
  nth_error (map_from f i l) k
  = option_map (fun x => f x (i + k)) (nth_error l k).
Proof.
  revert i k. induction l as [|x l IH]; intros i [|k]; simpl;
    try reflexivity.
  - now rewrite Nat.add_0_r.
  - rewrite IH. now replace (S i + k) with (i + S k) by lia.
Qed.

Lemma filter_without (rows : list InjectorTestRow) (index : nat)
  (row : InjectorTestRow) (p : InjectorTestRow -> bool) :
  nth_error rows index = Some row -> p row = false ->
  filter p (removeRow rows index) = filter p rows.
Proof.
  intros Hrow Hp. rewrite removeRow_firstn_skipn.
  rewrite <- (firstn_skipn index rows) at 3.
  rewrite !filter_app. f_equal.
  revert index Hrow. induction rows as [|r rows IH]; intros [|i] Hrow;
    simpl in *; try discriminate.
  - injection Hrow as ->. now rewrite Hp.
  - now apply IH.
Qed.

Lemma filter_nth_error {A : Type} (p : A -> bool) (l : list A) (i : nat)
  (x : A) :
  nth_error l i = Some x -> p x = true ->
  nth_error (filter p l) (List.length (filter p (firstn i l))) = Some x.
Proof.
  revert i. induction l as [|y l IH]; intros [|i] H Hp; simpl in *;
    try discriminate.
  - injection H as ->. now rewrite Hp.
  - destruct (p y); simpl; now apply IH.
Qed.

(** C9: the data handed to the regression are the pairs (pulse width, mass
    per pulse in mg) of the rows that pass the validator and have the flag
    set, in the order of the store.  A valid row with the flag cleared is not
    among them and the data are the same as without it.  Its metrics are
    computed all the same, by the same formulas as for an included row: its
    table cells are the formatted mass per pulse [1e3 * m / i], modelled mass
    [predict(p)[1]] and percent error, and the plot data hold its element,
    with all six numbers, at the place it has among the valid rows. *)
Theorem inclusion_flag (fit : FitResult) (rows : list InjectorTestRow) :
  regressionData rows =
    map (fun r => (toNumber (pulseWidth r),
                   (1e3 * toNumber (totalMass r) / toNumber (injections r))%float))
        (filter (fun r => toBoolean (rowIsValid r) && includeInRegression r)
                rows) /\
  forall (index : nat) (row : InjectorTestRow),
    nth_error rows index = Some row ->
    toBoolean (rowIsValid row) = true ->
    includeInRegression row = false ->
    let i := toNumber (injections row) in
    let p := toNumber (pulseWidth row) in
    let m := toNumber (totalMass row) in
    let actual := (1e3 * m / i)%float in
    let model := snd (predict fit p) in
    let err := (100 * (model - actual) / actual)%float in
    let slope := fst (equation fit) in
    let intercept := snd (equation fit) in
    let datum :=
      mkDatum p (1e3 * (m / i))%float err model
              (1e3 * (m / i) / slope)%float
              (p - (- intercept / slope) - 1e3 * (m / i) / slope)%float in
    regressionData (removeRow rows index) = regressionData rows /\
    nth_error (tableRows fit rows) index =
      Some (mkTableRow (formatRowValue (Some (actualMassMg row)))
                       (formatRowValue (Some (modelMass fit row)))
                       (formatRowValue (Some (pctError fit row)))
                       (if isLastRow index rows then AddRowButton
                        else RemoveButton)) /\
    actualMassMg row = actual /\ modelMass fit row = model /\
    pctError fit row = err /\
    In (plotDatum fit (clean row)) (dataForPlot fit rows) /\
    plotDatum fit (clean row) = datum /\
    nth_error (dataForPlot fit rows)
      (List.length (filter (fun r => toBoolean (rowIsValid r))
                           (firstn index rows)))
    = Some datum.
Proof.
  split; [apply regressionData_fitted|].
  intros index row Hrow Hv Hinc i p m actual model err slope intercept datum.
  split; [|split; [|split; [reflexivity|split; [reflexivity|
    split; [reflexivity|split; [|split; [reflexivity|]]]]]]].
  - rewrite !regressionData_fitted. f_equal.
    apply (filter_without rows index row); [exact Hrow|].
    unfold fitted. now rewrite Hinc, andb_false_r.
  - unfold tableRows. now rewrite map_from_nth_error, Hrow.
  - unfold dataForPlot. apply in_map. apply validRows_In.
    exists row. split; [eapply nth_error_In, Hrow | now split].
  - unfold dataForPlot, validRows. rewrite map_map.
    rewrite nth_error_map.
    now rewrite (filter_nth_error _ rows index row Hrow Hv).
Qed.

Lemma inclusion_flag_witness :
  let excluded := mkRow (Some 10%float) (Some 3%float) (Some 0.05%float) false "rowInput-2" in
  let rows := scenario ++ [excluded] in
  let fit := scenario_fit in
  regressionData rows = [(2, 2); (4, 6)]%float /\
  option_map t_pctError (nth_error (tableRows fit rows) 2) = Some (Text "-20.0") /\
  In (plotDatum fit (clean excluded)) (dataForPlot fit rows) /\
  nth_error (dataForPlot fit rows) 2
  = Some (mkDatum 3 5 (-20) 4 2.5 (-0.5))%float.
Proof.
  intros excluded rows fit.
  destruct (inclusion_flag fit rows) as [Hd H].
  destruct (H 2 excluded eq_refl eq_refl eq_refl)
    as (_ & Ht & _ & _ & _ & Hp & _ & Hn).
  split; [rewrite Hd; reflexivity|].
  split; [rewrite Ht; reflexivity|].
  split; [exact Hp | exact Hn].
Defined.

(** ** Formatting *)


Lemma length_zeros (k : nat) : String.length (zeros k) = k.
Proof. induction k; simpl; congruence. Qed.

Lemma length_append (a b : string) :
  String.length (a ++ b) = String.length a + String.length b.
Proof. induction a; simpl; congruence. Qed.

Lemma substring_all (s : string) : substring 0 (String.length s) s = s.
Proof. induction s as [|c s IH]; simpl; congruence. Qed.

Lemma substring_split (k : nat) (s : string) :
  k <= String.length s ->
  (substring 0 k s ++ substring k (String.length s - k) s)%string = s /\
  String.length (substring k (String.length s - k) s) = String.length s - k.
Proof.
  revert k. induction s as [|c s IH]; intros [|k] H; simpl in *; try lia.
  - now split.
  - now rewrite substring_all.
  - destruct (IH k) as [E L]; [lia|]. split; [now rewrite E | exact L].
Qed.

(** With [f] fractional digits asked for, the text is the zero-padded digits
    of [n] with a point before the last [f] of them. *)
Lemma fixed_digits_shape (n : Z) (f : nat) :
  f <> 0 ->
  exists a b,
    fixed_digits n f = (a ++ "." ++ b)%string /\
    String.length b = f /\ String.length a <> 0 /\
    (a ++ b)%string = (zeros (S f - String.length (digits n)) ++ digits n)%string.
Proof.
  intros Hf. unfold fixed_digits. fold (digits n).
  destruct (Nat.eqb_spec f 0) as [E|_]; [contradiction|].
  set (m := (zeros (S f - String.length (digits n)) ++ digits n)%string).
  assert (Hm : S f <= String.length m).
  { unfold m. rewrite length_append, length_zeros. lia. }
  destruct (substring_split (String.length m - f) m) as [E L]; [lia|].
  replace (String.length m - (String.length m - f)) with f in * by lia.
  exists (substring 0 (String.length m - f) m),
         (substring (String.length m - f) f m).
  split; [reflexivity|]. split; [exact L|]. split; [|exact E].
  apply (f_equal String.length) in E. rewrite length_append, L in E. lia.
Qed.





(** ** The fits of the examples

    The regression as modelled gives the two lines used above from the rows
    they stand for. *)
Lemma regression_of_examples :
  regressionResult scenario = scenario_fit /\
  regressionResult level_rows = level_fit.
Proof. split; reflexivity. Qed.

(** ** Sample evaluations *)

(** The regression on the three collinear points the specification gives. *)
Example linear_collinear :
  let fit := linear [(1, 2); (2, 4); (3, 6)]%float in
  equation fit = (2, 0)%float /\ predict fit 4 = (4, 8)%float.
Proof. vm_compute. split; reflexivity. Qed.

Example toFixed_samples :
  toFixed 166.666 1 = Text "166.7" /\ toFixed 2 2 = Text "2.00" /\
  toFixed (-0.04) 1 = Text "-0.0" /\ toFixed 0.05 1 = Text "0.1" /\
  toFixed 1.005 2 = Text "1.00" /\ toFixed 0.000123 3 = Text "0.000" /\
  toFixed (-12.3456) 3 = Text "-12.346" /\
  toFixed 1e21 1 = NumberToString 1e21 /\
  toFixed 2.5 0 = Text "3" /\ toFixed (-0) 1 = Text "0.0" /\
  toFixed infinity 1 = Text "Infinity" /\ toFixed nan 2 = Text "NaN".
Proof. vm_compute. repeat split. Qed.

(** * Further properties of the component *)

(** ** Editing a row *)

Lemma assign_at_nth {A : Type} (index : nat) (f : A -> A) (l : list A) :
  assign_at index f l =
  match nth_error l index with
  | Some x => Some (firstn index l ++ f x :: skipn (S index) l)
  | None => None
  end.
Proof.
  revert index. induction l as [|x l IH]; intros [|i]; simpl;
    try reflexivity.
  rewrite IH. now destruct (nth_error l i).
Qed.



Lemma setField_same (f : field) (row : InjectorTestRow) (v w : float) :
  setField f (setField f row v) w = setField f row w.
Proof. now destruct f. Qed.

Lemma setField_swap (f g : field) (row : InjectorTestRow) (v w : float) :
  f <> g ->
  setField g (setField f row v) w = setField f (setField g row w) v.
Proof. destruct f, g; intros H; try reflexivity; now elim H. Qed.

Lemma assign_at_twice {A : Type} (index : nat) (f g : A -> A) (l : list A) :
  and_then (assign_at index f l) (assign_at index g)
  = assign_at index (fun x => g (f x)) l.
Proof.
  revert index. induction l as [|x l IH]; intros [|i]; simpl;
    try reflexivity.
  rewrite <- IH. now destruct (assign_at i f l).
Qed.

Lemma assign_at_ext {A : Type} (index : nat) (f g : A -> A) (l : list A) :
  (forall x, f x = g x) -> assign_at index f l = assign_at index g l.
Proof.
  intros H. revert index. induction l as [|x l IH]; intros [|i]; simpl;
    try reflexivity.
  - now rewrite H.
  - now rewrite IH.
Qed.

(** X2: two changes of the same field of the same row amount to the second
    one alone, and changes of two different fields of a row can be made in
    either order. *)
Theorem handleInputChange_compose (rows : list InjectorTestRow) (index : nat)
  (f g : field) (v w : float) :
  and_then (handleInputChange rows index (setField f) v)
           (fun rows' => handleInputChange rows' index (setField f) w)
  = handleInputChange rows index (setField f) w /\
  (f <> g ->
   and_then (handleInputChange rows index (setField f) v)
            (fun rows' => handleInputChange rows' index (setField g) w)
   = and_then (handleInputChange rows index (setField g) w)
              (fun rows' => handleInputChange rows' index (setField f) v)).
Proof.
  unfold handleInputChange. split.
  - rewrite (assign_at_twice index (fun r => setField f r v)
               (fun r => setField f r w)).
    apply assign_at_ext. intros r. apply setField_same.
  - intros Hfg.
    rewrite (assign_at_twice index (fun r => setField f r v)
               (fun r => setField g r w)).
    rewrite (assign_at_twice index (fun r => setField g r w)
               (fun r => setField f r v)).
    apply assign_at_ext. intros r. now apply setField_swap.
Qed.

Lemma handleInputChange_compose_witness :
  and_then (handleInputChange scenario 0 (setField Injections) 5)
           (fun rows' => handleInputChange rows' 0 (setField TotalMass) 0.01)
  = and_then (handleInputChange scenario 0 (setField TotalMass) 0.01)
             (fun rows' => handleInputChange rows' 0 (setField Injections) 5).
Proof.
  apply (proj2 (handleInputChange_compose scenario 0 Injections TotalMass
                  5 0.01)).
  discriminate.
Defined.

(** X3: [handleInclude] sets the flag of the row at [index] and nothing else:
    the validator and the numbers of the row are unchanged, and setting the
    flag back to what it was restores the store.  On an index outside the
    array it throws. *)
Theorem handleInclude_round_trip (rows : list InjectorTestRow) (index : nat)
  (value : bool) :
  handleInclude rows index value =
  match nth_error rows index with
  | Some row =>
      Some (firstn index rows
            ++ mkRow (injections row) (pulseWidth row) (totalMass row) value
                     (id row)
            :: skipn (S index) rows)
  | None => None
  end /\
  (forall row,
     nth_error rows index = Some row ->
     and_then (handleInclude rows index value)
              (fun rows' => handleInclude rows' index (includeInRegression row))
     = Some rows) /\
  (forall row,
     let row' := mkRow (injections row) (pulseWidth row) (totalMass row) value
                       (id row) in
     rowIsValid row' = rowIsValid row /\ actualMassMg row' = actualMassMg row).
Proof.
  split; [apply assign_at_nth|]. split; [|now intros row].
  intros row Hrow. unfold handleInclude.
  rewrite assign_at_twice, assign_at_nth, Hrow. cbn [injections pulseWidth
    totalMass id].
  f_equal. rewrite <- (firstn_skipn index rows) at 3. f_equal.
  destruct row as [i p m inc rid]. cbn.
  clear -Hrow. revert index Hrow.
  induction rows as [|r rows IH]; intros [|k] H; simpl in *;
    try discriminate.
  - now injection H as ->.
  - now apply IH.
Qed.

Lemma handleInclude_round_trip_witness :
  and_then (handleInclude scenario 0 false)
           (fun rows' => handleInclude rows' 0 true) = Some scenario.
Proof.
  exact (proj1 (proj2 (handleInclude_round_trip scenario 0 false)) _ eq_refl).
Defined.

(** ** Removing and adding rows *)

Lemma filter_from_all {A : Type} (index i : nat) (l : list A) :
  i + List.length l <= index ->
  filter_from (fun _ j => negb (Nat.eqb j index)) i l = l.
Proof.
  revert i. induction l as [|x l IH]; intros i H; simpl in *;
    [reflexivity|].
  destruct (Nat.eqb_spec i index) as [E|_]; [lia|]. simpl.
  f_equal. apply IH. lia.
Qed.

(** X4: [removeRow] with an index outside the array removes nothing, and a
    removal inside it shortens the array by exactly one. *)
Theorem removeRow_bounds (rows : list InjectorTestRow) (index : nat) :
  (List.length rows <= index -> removeRow rows index = rows) /\
  (index < List.length rows ->
   S (List.length (removeRow rows index)) = List.length rows).
Proof.
  split; intros H.
  - apply filter_from_all. simpl. exact H.
  - rewrite removeRow_length by exact H. lia.
Qed.

Lemma removeRow_bounds_witness :
  removeRow scenario 2 = scenario /\
  S (List.length (removeRow scenario 1)) = List.length scenario.
Proof.
  split.
  - apply (proj1 (removeRow_bounds scenario 2)). simpl. lia.
  - apply (proj2 (removeRow_bounds scenario 1)). simpl. lia.
Defined.

Lemma lastRowId_app (l : list InjectorTestRow) (r : InjectorTestRow) :
  lastRowId (l ++ [r]) = Some (id r).
Proof.
  unfold lastRowId. rewrite length_app. simpl.
  replace (List.length l + 1 - 1) with (List.length l) by lia.
  rewrite nth_error_app2 by lia. now rewrite Nat.sub_diag.
Qed.

Lemma nth_error_last_removeRow (rows : list InjectorTestRow) (index : nat) :
  S index < List.length rows ->
  nth_error (removeRow rows index) (List.length (removeRow rows index) - 1)
  = nth_error rows (List.length rows - 1).
Proof.
  intros H. rewrite removeRow_length by lia.
  rewrite removeRow_firstn_skipn.
  assert (Hf : List.length (firstn index rows) = index)
    by (rewrite length_firstn; lia).
  rewrite nth_error_app2 by lia. rewrite Hf, nth_error_skipn.
  f_equal. lia.
Qed.

(** X5: the remove button never takes the last row away: after a removal the
    table offers, the last row of the store is the row that was last before,
    and the input the focus effect looks up is the same. *)
Theorem remove_keeps_last_row (st st' : App) (index : nat) :
  fire st (Remove index) = Some st' ->
  nth_error (rows st') (List.length (rows st') - 1)
  = nth_error (rows st) (List.length (rows st) - 1) /\
  lastRowId (rows st') = lastRowId (rows st) /\
  S (List.length (rows st')) = List.length (rows st).
Proof.
  rewrite fire_Remove.
  destruct (Nat.ltb_spec (S index) (List.length (rows st))) as [H|_];
    [|discriminate].
  intros E. injection E as <-. cbn [rows].
  rewrite <- removeRow_firstn_skipn.
  pose proof (nth_error_last_removeRow (rows st) index H) as Hl.
  split; [exact Hl|]. split.
  - unfold lastRowId. now rewrite Hl.
  - rewrite removeRow_length by lia. lia.
Qed.

Lemma remove_keeps_last_row_witness :
  let st := mkApp scenario 9 in
  fire st (Remove 0) = Some (mkApp (removeRow scenario 0) 9) /\
  lastRowId (removeRow scenario 0) = Some "rowInput-4"%string.
Proof.
  intros st.
  assert (E : fire st (Remove 0) = Some (mkApp (removeRow scenario 0) 9))
    by reflexivity.
  split; [exact E|].
  exact (proj1 (proj2 (remove_keeps_last_row st _ 0 E))).
Defined.

(** ** The table *)

Lemma map_from_length {A B : Type} (f : A -> nat -> B) (i : nat) (l : list A) :
  List.length (map_from f i l) = List.length l.
Proof.
  revert i. induction l as [|x l IH]; intros i; simpl; [reflexivity|].
  now rewrite IH.
Qed.

(** X6: the table has one row per row of the store, and its button is the
    [Add Row] button on the last row and the remove button on every other
    one. *)
Theorem tableRows_buttons (fit : FitResult) (rows : list InjectorTestRow) :
  List.length (tableRows fit rows) = List.length rows /\
  forall index,
    option_map t_button (nth_error (tableRows fit rows) index) =
    if Nat.ltb index (List.length rows)
    then Some (if Nat.eqb (S index) (List.length rows) then AddRowButton
               else RemoveButton)
    else None.
Proof.
  unfold tableRows. split; [apply map_from_length|].
  intros index. rewrite map_from_nth_error.
  destruct (Nat.ltb_spec index (List.length rows)) as [H|H].
  - destruct (nth_error rows index) as [row|] eqn:E.
    + reflexivity.
    + apply nth_error_None in E. lia.
  - apply nth_error_None in H. now rewrite H.
Qed.

(** ** Edits and the validator *)

Lemma usable_Some (v : float) : usable (Some v) = negb (zero_or_nan v).
Proof. unfold usable, zero_or_nan. now rewrite negb_orb. Qed.

(** X7: a change that stores a zero or NaN (the result of [parseFloat] on
    text that is not a number) makes the row fail the validator, whatever the
    row held; a change that stores any other number into a row that passes
    keeps it passing. *)
Theorem edit_validity (f : field) (row : InjectorTestRow) (v : float) :
  (zero_or_nan v = true -> toBoolean (rowIsValid (setField f row v)) = false) /\
  (toBoolean (rowIsValid row) = true -> zero_or_nan v = false ->
   toBoolean (rowIsValid (setField f row v)) = true).
Proof.
  fold (valid (setField f row v)). fold (valid row).
  rewrite !valid_usable. split.
  - intros Hv.
    destruct f; cbn [setField injections pulseWidth totalMass];
      rewrite usable_Some, Hv; cbn [negb andb];
      now rewrite ?andb_false_r.
  - intros H Hv. rewrite !andb_true_iff in H. destruct H as [[Hi Hp] Hm].
    destruct f; cbn [setField injections pulseWidth totalMass];
      rewrite usable_Some, Hv, ?Hi, ?Hp, ?Hm; reflexivity.
Qed.

Lemma edit_validity_witness :
  toBoolean (rowIsValid (setField TotalMass
    (mkRow (Some 10%float) (Some 2%float) (Some 0.02%float) true "rowInput-0")
    nan)) = false /\
  toBoolean (rowIsValid (setField TotalMass
    (mkRow (Some 10%float) (Some 2%float) (Some 0.02%float) true "rowInput-0")
    0.03)) = true.
Proof.
  set (row := mkRow (Some 10%float) (Some 2%float) (Some 0.02%float) true
                    "rowInput-0").
  split.
  - exact (proj1 (edit_validity TotalMass row nan) eq_refl).
  - exact (proj2 (edit_validity TotalMass row 0.03) eq_refl eq_refl).
Defined.

(** ** Rows that do not pass the validator *)

Lemma validRows_app (a b : list InjectorTestRow) :
  validRows (a ++ b) = validRows a ++ validRows b.
Proof. unfold validRows. now rewrite filter_app, map_app. Qed.

Lemma regressionData_app (a b : list InjectorTestRow) :
  regressionData (a ++ b) = regressionData a ++ regressionData b.
Proof.
  unfold regressionData. now rewrite validRows_app, filter_app, map_app.
Qed.

Lemma validRows_invalid (r : InjectorTestRow) (b : list InjectorTestRow) :
  toBoolean (rowIsValid r) = false -> validRows (r :: b) = validRows b.
Proof. intros H. unfold validRows. simpl. now rewrite H. Qed.

(** X8: a row that fails the validator takes no part in any computation: the
    data of the regression and the plot data are those of the store without
    it.  In particular the blank row that [addRow] appends changes
    neither. *)
Theorem invalid_row_ignored (fit : FitResult) (a b : list InjectorTestRow)
  (r : InjectorTestRow) :
  toBoolean (rowIsValid r) = false ->
  regressionData (a ++ r :: b) = regressionData (a ++ b) /\
  dataForPlot fit (a ++ r :: b) = dataForPlot fit (a ++ b) /\
  (forall st,
     regressionData (rows (addRow st)) = regressionData (rows st) /\
     dataForPlot fit (rows (addRow st)) = dataForPlot fit (rows st)).
Proof.
  intros H.
  assert (Hv : validRows (a ++ r :: b) = validRows (a ++ b))
    by (rewrite !validRows_app; f_equal; now apply validRows_invalid).
  split; [|split].
  - unfold regressionData. now rewrite Hv.
  - unfold dataForPlot. now rewrite Hv.
  - intros st. unfold addRow. cbn [makeRow rows].
    assert (Hb : validRows (rows st ++
                   [mkRow None None None true
                      ("rowInput-"
                       ++ NilEmpty.string_of_uint (Nat.to_uint (nextId st)))])
                 = validRows (rows st))
      by (rewrite validRows_app; cbn; apply app_nil_r).
    unfold regressionData, dataForPlot. now rewrite Hb.
Qed.

Lemma invalid_row_ignored_witness :
  let half := mkRow (Some 10%float) None (Some 0.02%float) true "rowInput-6" in
  regressionData (scenario ++ [half]) = regressionData scenario.
Proof.
  intros half.
  pose proof (proj1 (invalid_row_ignored scenario_fit scenario [] half eq_refl))
    as H.
  now rewrite app_nil_r in H.
Defined.

(** X9: a row without its injection count or without its total mass shows an
    empty cell for the mass per pulse and for the percent error, whatever the
    fit. *)
Theorem incomplete_row_cells (fit : FitResult) (rows : list InjectorTestRow)
  (row : InjectorTestRow) (index : nat) :
  injections row = None \/ totalMass row = None ->
  actualMassMg row = nan /\ pctError fit row = nan /\
  t_actualMass (tableRow fit rows row index) = Text "" /\
  t_pctError (tableRow fit rows row index) = Text "".
Proof.
  intros H.
  assert (Ha : actualMassMg row = nan).
  { unfold actualMassMg.
    destruct H as [H|H]; rewrite H; cbn [toNumber].
    - apply div_nan_r.
    - now rewrite mul_nan_r, div_nan_l. }
  assert (Hp : pctError fit row = nan).
  { unfold pctError. rewrite Ha. apply div_nan_r. }
  split; [exact Ha|]. split; [exact Hp|].
  unfold tableRow. cbn [t_actualMass t_pctError].
  now rewrite Ha, Hp.
Qed.

Lemma incomplete_row_cells_witness :
  let row := mkRow None (Some 2%float) (Some 0.02%float) true "rowInput-0" in
  t_actualMass (tableRow scenario_fit [row] row 0) = Text "" /\
  t_pctError (tableRow scenario_fit [row] row 0) = Text "".
Proof.
  intros row.
  destruct (incomplete_row_cells scenario_fit [row] row 0 (or_introl eq_refl))
    as (_ & _ & Ha & Hp).
  split; [exact Ha | exact Hp].
Defined.

(** ** A fit of slope zero *)

Lemma is_finite_SF (x : float) :
  PrimFloat.is_finite x =
  match Prim2SF x with
  | S754_zero _ | S754_finite _ _ _ => true
  | _ => false
  end.
Proof.
  unfold PrimFloat.is_finite. rewrite is_nan_SF, is_infinity_SF.
  now destruct (Prim2SF x).
Qed.

Lemma div_zero_not_finite (x y : float) :
  PrimFloat.is_zero y = true -> PrimFloat.is_finite (x / y) = false.
Proof.
  intros H. destruct (div_by_zero x y H) as [Hn Hi].
  unfold PrimFloat.is_finite. rewrite Hn, Hi.
  now destruct (zero_or_nan x).
Qed.

Lemma sub_not_finite_r (x y : float) :
  PrimFloat.is_finite y = false -> PrimFloat.is_finite (x - y) = false.
Proof.
  rewrite !is_finite_SF, sub_spec.
  now destruct (Prim2SF x) as [[|]|[|]| |[|] m e];
    destruct (Prim2SF y) as [[|]|[|]| |[|] m' e'].
Qed.

Lemma sub_not_finite_l (x y : float) :
  PrimFloat.is_finite x = false -> PrimFloat.is_finite (x - y) = false.
Proof.
  rewrite !is_finite_SF, sub_spec.
  now destruct (Prim2SF x) as [[|]|[|]| |[|] m e];
    destruct (Prim2SF y) as [[|]|[|]| |[|] m' e'].
Qed.

Lemma toFixed_not_finite (x : float) (f : nat) :
  PrimFloat.is_finite x = false ->
  toFixed x f = Text "NaN" \/ toFixed x f = Text "Infinity" \/
  toFixed x f = Text "-Infinity".
Proof.
  rewrite is_finite_SF. unfold toFixed.
  destruct (Prim2SF x) as [[|]|[|]| |[|] m e]; try discriminate; tauto.
Qed.

(** X10: when the fitted slope is a zero, the deadtime, and the modelled
    pulse width and the small pulse adder of every valid row, are NaN or
    infinite, never a finite number; the small pulse table then shows NaN,
    Infinity or -Infinity in every position. *)
Theorem flat_fit_small_pulse (fit : FitResult) (rows : list InjectorTestRow) :
  PrimFloat.is_zero (flowRate fit) = true ->
  PrimFloat.is_finite (deadtime fit) = false /\
  forall d, In d (dataForPlot fit rows) ->
    PrimFloat.is_finite (d_modelPulse d) = false /\
    PrimFloat.is_finite (d_smallPulseAdder d) = false /\
    (toFixed (d_smallPulseAdder d) 3 = Text "NaN" \/
     toFixed (d_smallPulseAdder d) 3 = Text "Infinity" \/
     toFixed (d_smallPulseAdder d) 3 = Text "-Infinity").
Proof.
  intros Hz.
  assert (Hd : PrimFloat.is_finite (deadtime fit) = false)
    by (now apply div_zero_not_finite).
  split; [exact Hd|].
  intros d Hin. unfold dataForPlot in Hin. apply in_map_iff in Hin.
  destruct Hin as (c & <- & _). cbn [plotDatum d_modelPulse d_smallPulseAdder].
  assert (Ha : PrimFloat.is_finite
                 (c_pulseWidth c - deadtime fit
                  - 1e3 * (c_totalMass c / c_injections c) / flowRate fit)
               = false)
    by (apply sub_not_finite_l, sub_not_finite_r, Hd).
  split; [now apply div_zero_not_finite|].
  split; [exact Ha | now apply toFixed_not_finite].
Qed.

Lemma flat_fit_small_pulse_witness :
  PrimFloat.is_zero (flowRate level_fit) = true /\
  PrimFloat.is_finite (deadtime level_fit) = false.
Proof.
  split; [reflexivity|].
  exact (proj1 (flat_fit_small_pulse level_fit level_rows eq_refl)).
Defined.

(** ** The text NaN *)

Lemma string_of_uint_head (d : Decimal.uint) :
  d <> Decimal.Nil ->
  exists c s, NilEmpty.string_of_uint d = String c s /\
              Ascii.eqb c "N" = false.
Proof.
  destruct d; intros H; try (now elim H); simpl; eauto.
Qed.

Lemma digits_head (n : Z) :
  exists c s, digits n = String c s /\ Ascii.eqb c "N" = false.
Proof.
  unfold digits. apply string_of_uint_head.
  destruct (Z.to_N n) as [|p]; simpl; [discriminate|].
  apply DecimalPos.Unsigned.to_uint_nonnil.
Qed.

Lemma zeros_digits_head (k : nat) (n : Z) :
  exists c s, (zeros k ++ digits n)%string = String c s /\
              Ascii.eqb c "N" = false.
Proof.
  destruct k as [|k]; simpl; [apply digits_head | eauto].
Qed.

Lemma fixed_digits_head (n : Z) (f : nat) :
  exists c s, fixed_digits n f = String c s /\ Ascii.eqb c "N" = false.
Proof.
  destruct (Nat.eq_dec f 0) as [->|Hf].
  - unfold fixed_digits. simpl. apply digits_head.
  - destruct (fixed_digits_shape n f Hf) as (a & b & E & _ & Ha & Hab).
    destruct (zeros_digits_head (S f - String.length (digits n)) n)
      as (c & s & Hc & Hn).
    rewrite <- Hab in Hc. rewrite E.
    destruct a as [|c' a]; [now elim Ha|].
    simpl in Hc. injection Hc as -> _. simpl. eauto.
Qed.

Lemma shows_NaN_toFixed (x : float) (f : nat) :
  shows_NaN (toFixed x f) = PrimFloat.is_nan x.
Proof.
  rewrite is_nan_SF. unfold toFixed.
  destruct (Prim2SF x) as [[|]|[|]| |s m e]; try reflexivity.
  - destruct (fixed_digits_head 0 f) as (c & t & -> & Hc). simpl.
    now rewrite Hc.
  - destruct (fixed_digits_head 0 f) as (c & t & -> & Hc). simpl.
    now rewrite Hc.
  - cbv zeta.
    destruct (10 ^ 21 * magnitude_den e <=? magnitude_num m e)%Z;
      [reflexivity|].
    destruct (fixed_digits_head
                (nearest (magnitude_num m e * 10 ^ Z.of_nat f)
                         (magnitude_den e)) f) as (c & t & -> & Hc).
    destruct s; simpl; [reflexivity | now rewrite Hc].
Qed.

(** X11: [toFixed] gives the text NaN for NaN and for no other number; so
    the summary shows NaN for the deadtime exactly when the deadtime is NaN,
    and the small pulse table for an adder exactly when the adder is NaN. *)
Theorem toFixed_NaN_iff (x : float) (f : nat) :
  shows_NaN (toFixed x f) = PrimFloat.is_nan x /\
  (forall fit,
     shows_NaN (deadtimeText (summary fit)) = PrimFloat.is_nan (deadtime fit) /\
     shows_NaN (flowRateText (summary fit)) = PrimFloat.is_nan (flowRate fit)) /\
  (forall data,
     map shows_NaN (fst (smallPulseTable data))
     = map (fun c => PrimFloat.is_nan (d_smallPulseAdder c)) data).
Proof.
  split; [apply shows_NaN_toFixed|]. split.
  - intros fit. split; apply shows_NaN_toFixed.
  - intros data. unfold smallPulseTable. cbn [fst]. rewrite map_map.
    apply map_ext. intros c. apply shows_NaN_toFixed.
Qed.

(** X12: a table cell never shows the text NaN: [formatRowValue] of undefined
    or NaN is the empty text, and of any other number a text that is not
    NaN. *)
Theorem formatRowValue_never_NaN (val : option float) :
  shows_NaN (formatRowValue val) = false /\
  (formatRowValue val = Text "" <-> isNaN val = true).
Proof.
  destruct val as [x|]; [|now split].
  unfold formatRowValue. destruct (isNaN (Some x)) eqn:E.
  - now split.
  - split; [now rewrite shows_NaN_toFixed|].
    split; [|discriminate]. intros H. exfalso.
    revert H. unfold toFixed.
    destruct (Prim2SF x) as [[|]|[|]| |s m e]; try discriminate.
    cbv zeta.
    destruct (10 ^ 21 * magnitude_den e <=? magnitude_num m e)%Z;
      [discriminate|].
    destruct (fixed_digits_shape
                (nearest (magnitude_num m e * 10 ^ Z.of_nat 1)
                         (magnitude_den e)) 1)
      as (a & b & -> & _ & Ha & _); [discriminate|].
    destruct s; [discriminate|].
    destruct a; [now elim Ha | discriminate].
Qed.

(** ** Row ids *)










(** ** Excluding a row *)

(** X14: clearing the flag of a row has the same effect on the data of the
    regression as removing the row, while the row stays in the store and, if
    it passes the validator, in the plot data. *)
Theorem exclude_like_remove (fit : FitResult) (rows : list InjectorTestRow)
  (index : nat) (row : InjectorTestRow) :
  nth_error rows index = Some row ->
  exists rows',
    handleInclude rows index false = Some rows' /\
    regressionData rows' = regressionData (removeRow rows index) /\
    List.length rows' = List.length rows /\
    List.length (dataForPlot fit rows') = List.length (dataForPlot fit rows).
Proof.
  intros Hrow. unfold handleInclude. rewrite assign_at_nth, Hrow.
  eexists. split; [reflexivity|].
  set (row' := mkRow (injections row) (pulseWidth row) (totalMass row) false
                     (id row)).
  assert (Hsplit : rows = firstn index rows ++ row :: skipn (S index) rows).
  { clear -Hrow. revert index Hrow.
    induction rows as [|r rows IH]; intros [|k] H; simpl in *;
      try discriminate.
    - now injection H as ->.
    - f_equal. now apply IH. }
  split; [|split].
  - rewrite removeRow_firstn_skipn, !regressionData_app. f_equal.
    change (row' :: skipn (S index) rows)
      with ([row'] ++ skipn (S index) rows).
    rewrite regressionData_app.
    replace (regressionData [row']) with (@nil (float * float));
      [reflexivity|].
    unfold regressionData, validRows. simpl.
    now destruct (toBoolean (rowIsValid row')).
  - rewrite Hsplit at 3. rewrite !length_app. reflexivity.
  - unfold dataForPlot. rewrite !length_map. rewrite Hsplit at 3.
    unfold validRows. rewrite !length_map, !filter_app, !length_app.
    f_equal. simpl.
    change (rowIsValid row') with (rowIsValid row).
    now destruct (toBoolean (rowIsValid row)).
Qed.

Lemma exclude_like_remove_witness :
  exists rows',
    handleInclude scenario 0 false = Some rows' /\
    regressionData rows' = [(4, 6)]%float.
Proof.
  destruct (exclude_like_remove scenario_fit scenario 0 _ eq_refl)
    as (rows' & E & Hd & _).
  exists rows'. split; [exact E|]. rewrite Hd. reflexivity.
Defined.
